(** * NeuraDNS UI server (blockchain_dns_register/app.py)

    A shallow embedding of the Flask gateway: one static page, one local
    health endpoint, and four routes that forward a request to the Node.js
    backend and relay its JSON answer.  View functions are written in a small
    monad that threads the log of outbound backend calls and carries Python
    exceptions, so that [try: ... except Exception as e: ...] can be written
    as it is in the source. *)

From Stdlib Require Import String Ascii ZArith List Bool Lia.
Import ListNotations.
Set Warnings "-register-all".
Local Open Scope Z_scope.
Local Open Scope list_scope.
Local Open Scope string_scope.

(** ** Python values *)

(** The objects that [json.loads] produces and [jsonify] / [json=] consume:
    [None], booleans, integers, floats (kept by their literal), strings,
    lists and dicts (in insertion order). *)
Inductive pyobj : Type :=
| PyNone
| PyBool (b : bool)
| PyInt (n : Z)
| PyFloat (literal : string)
| PyStr (s : string)
| PyList (items : list pyobj)
| PyDict (items : list (string * pyobj)).

(** An instance of a subclass of [Exception]; the handlers only ever look at
    [str(e)]. *)
Record Exception : Type := mkException {
  exc_class : string;
  exc_str : string
}.

Definition str (e : Exception) : string := exc_str e.

(** What evaluating a Python expression yields. *)
Inductive result (A : Type) : Type :=
| Raised (e : Exception)
| Returned (a : A).
Arguments Raised {A} e.
Arguments Returned {A} a.

(** [d.get(key)] on a dict literal / a MultiDict: the first binding. *)
Fixpoint dict_get {A : Type} (key : string) (d : list (string * A)) : option A :=
  match d with
  | [] => None
  | (k, v) :: rest => if String.eqb k key then Some v else dict_get key rest
  end.

(** How an f-string renders [{x}] when [x] is a [str] or [None]. *)
Definition format (x : option string) : string :=
  match x with
  | Some s => s
  | None => "None"
  end.

(** ** Configuration constants *)

Definition API_BASE_URL : string := "http://localhost:3007".
Definition HTML_FILE : string := "public/index.html".

(** ** Flask responses *)

Inductive payload : Type :=
| JsonBody (v : pyobj)
| FileBody (contents : string)
| TextBody (text : string).

Record Response : Type := mkResponse {
  status : Z;
  mimetype : string;
  data : payload
}.

(** [jsonify(v)]: a 200 response of type application/json carrying [v]. *)
Definition jsonify (v : pyobj) : Response :=
  {| status := 200; mimetype := "application/json"; data := JsonBody v |}.

Definition FileNotFoundError (path : string) : Exception :=
  {| exc_class := "FileNotFoundError";
     exc_str := "[Errno 2] No such file or directory: '" ++ path ++ "'" |}.

(** ** The world a view function runs in *)

(** The inbound [flask.request]: raw body and headers, the outcome of the
    [request.json] property, and the query arguments [request.args]. *)
Record Request : Type := mkRequest {
  req_data : string;
  req_headers : list (string * string);
  req_json : result pyobj;
  req_args : list (string * string)
}.

(** A [requests.Response]: its [status_code] and the outcome of [.json()]. *)
Record BackendResponse : Type := mkBackendResponse {
  status_code : Z;
  json : result pyobj
}.

(** One call into the [requests] library. *)
Inductive outbound : Type :=
| HttpGet (url : string)
| HttpPost (url : string) (json_arg : pyobj) (headers : list (string * string)).

(** The backend is opaque: given the calls made so far and the next one, it
    answers or the transport raises. *)
Definition Backend : Type := list outbound -> outbound -> result BackendResponse.

(** [flask.send_file] is opaque too: it finds the path under the
    application's root, reads the [Range] and conditional headers of the
    inbound request, and answers with a response (200, 206, 304) or raises
    (the file is missing, the range cannot be satisfied). *)
Definition StaticFiles : Type := string -> Request -> result Response.

Record env : Type := mkEnv {
  inbound : Request;
  backend : Backend;
  static_file : StaticFiles
}.

(** ** The handler monad: reader of [env], log of outbound calls, exceptions *)

Definition Handler (A : Type) : Type :=
  env -> list outbound -> result A * list outbound.

Definition ret {A : Type} (a : A) : Handler A :=
  fun _ log => (Returned a, log).

Definition bind {A B : Type} (m : Handler A) (k : A -> Handler B) : Handler B :=
  fun w log =>
    match m w log with
    | (Returned a, log') => k a w log'
    | (Raised e, log') => (Raised e, log')
    end.

Definition raise {A : Type} (e : Exception) : Handler A :=
  fun _ log => (Raised e, log).

(** [try: body  except Exception as e: handler e].  Calls already made stay
    in the log. *)
Definition try_except {A : Type} (body : Handler A) (handler : Exception -> Handler A)
  : Handler A :=
  fun w log =>
    match body w log with
    | (Returned a, log') => (Returned a, log')
    | (Raised e, log') => handler e w log'
    end.

Declare Scope handler_scope.
Delimit Scope handler_scope with handler.
Notation "x <- m ;; k" := (bind m (fun x => k))
  (at level 100, m at next level, right associativity) : handler_scope.
Local Open Scope handler_scope.

(** A request is handled starting from an empty log. *)
Definition run {A : Type} (h : Handler A) (w : env) : result A * list outbound :=
  h w [].

Definition outcome {A : Type} (h : Handler A) (w : env) : result A := fst (run h w).
Definition calls {A : Type} (h : Handler A) (w : env) : list outbound := snd (run h w).

(** ** Library operations used by the views *)

Module requests.

(** [requests.get(url)] *)
Definition get (url : string) : Handler BackendResponse :=
  fun w log => (backend w log (HttpGet url), (log ++ [HttpGet url])%list).

(** [requests.post(url, json=j, headers=h)] *)
Definition post (url : string) (j : pyobj) (h : list (string * string))
  : Handler BackendResponse :=
  fun w log => (backend w log (HttpPost url j h), (log ++ [HttpPost url j h])%list).

End requests.

(** [response.json()] *)
Definition response_json (response : BackendResponse) : Handler pyobj :=
  fun _ log => (json response, log).

Module request.

(** [request.json] *)
Definition json : Handler pyobj :=
  fun w log => (req_json (inbound w), log).

(** [request.args.get(key)] *)
Definition args_get (key : string) : Handler (option string) :=
  fun w log => (Returned (dict_get key (req_args (inbound w))), log).

End request.

(** ** Serving the page *)

(** [send_file(path)]: whatever Flask answers for this path and this
    inbound request. *)
Definition send_file (path : string) : Handler Response :=
  fun w log => (static_file w path (inbound w), log).

(** What a view hands back to Flask: a value or a response object, alone or
    in a tuple with a status code. *)
Inductive body : Type :=
| Value (v : pyobj)
| Resp (r : Response).

Inductive view_return : Type :=
| Bare (b : body)
| WithStatus (b : body) (code : Z).

(** ** From what a view returns to the reply *)

Definition TypeError : Exception :=
  mkException "TypeError" "The view function did not return a valid response.".

(** How Flask turns the first component of what a view returned into a
    response: a response object is taken as it is, a dict or a list goes
    through [jsonify], a string becomes an HTML body, and any other value
    (an int, a float, a bool, [None]) is refused with [TypeError]. *)
Definition convert (b : body) : result Response :=
  match b with
  | Resp r => Returned r
  | Value (PyDict items) => Returned (jsonify (PyDict items))
  | Value (PyList items) => Returned (jsonify (PyList items))
  | Value (PyStr s) => Returned {| status := 200; mimetype := "text/html"; data := TextBody s |}
  | Value _ => Raised TypeError
  end.

Definition with_status (r : Response) (code : Z) : Response :=
  {| status := code; mimetype := mimetype r; data := data r |}.

(** [Flask.make_response]: it runs after the view has returned, outside
    the view's own [try]. *)
Definition make_response (rv : view_return) : result Response :=
  match rv with
  | Bare b => convert b
  | WithStatus b code =>
      match convert b with
      | Returned r => Returned (with_status r code)
      | Raised e => Raised e
      end
  end.

(** The page Flask answers with when an exception reaches it. *)
Definition internal_server_error : Response :=
  let nl := String "010"%char "" in
  {| status := 500;
     mimetype := "text/html";
     data := TextBody
       ("<!doctype html>" ++ nl ++ "<html lang=en>" ++ nl
        ++ "<title>500 Internal Server Error</title>" ++ nl
        ++ "<h1>Internal Server Error</h1>" ++ nl
        ++ "<p>The server encountered an internal error and was unable to complete your request. Either the server is overloaded or there is an error in the application.</p>"
        ++ nl) |}.

(** The response Flask builds for what a view returned: the converted
    value, or the page of a 500 when the conversion raises. *)
Definition reply_to (rv : view_return) : Response :=
  match make_response rv with
  | Returned r => r
  | Raised _ => internal_server_error
  end.

(** The status code of that response. *)
Definition returned_status (rv : view_return) : Z := status (reply_to rv).

(** The JSON document of that response, when it has one. *)
Definition returned_json (rv : view_return) : option pyobj :=
  match data (reply_to rv) with
  | JsonBody v => Some v
  | FileBody _ | TextBody _ => None
  end.

(** ** Main routes *)

Definition index : Handler view_return :=
  r <- send_file HTML_FILE ;;
  ret (Bare (Resp r)).

Definition health_body : pyobj :=
  PyDict [("status", PyStr "running");
          ("ui_server", PyStr "Flask");
          ("port", PyInt 8765)].

Definition health : Handler view_return :=
  ret (Bare (Resp (jsonify health_body))).

(** ** API proxy routes *)

(** [return jsonify({"error": str(e)}), 500] *)
Definition error_reply (e : Exception) : view_return :=
  WithStatus (Resp (jsonify (PyDict [("error", PyStr (str e))]))) 500.

Definition api_health : Handler view_return :=
  try_except
    (response <- requests.get (API_BASE_URL ++ "/health") ;;
     j <- response_json response ;;
     ret (WithStatus (Value j) (status_code response)))
    (fun e => ret (error_reply e)).

Definition api_validate : Handler view_return :=
  try_except
    (j_in <- request.json ;;
     response <- requests.post (API_BASE_URL ++ "/validate") j_in
                   [("Content-Type", "application/json")] ;;
     j <- response_json response ;;
     ret (WithStatus (Value j) (status_code response)))
    (fun e => ret (error_reply e)).

Definition api_register : Handler view_return :=
  try_except
    (j_in <- request.json ;;
     response <- requests.post (API_BASE_URL ++ "/register") j_in
                   [("Content-Type", "application/json")] ;;
     j <- response_json response ;;
     ret (WithStatus (Value j) (status_code response)))
    (fun e => ret (error_reply e)).

Definition api_resolve : Handler view_return :=
  try_except
    (domain <- request.args_get "domain" ;;
     response <- requests.get (API_BASE_URL ++ "/resolve?domain=" ++ format domain) ;;
     j <- response_json response ;;
     ret (WithStatus (Value j) (status_code response)))
    (fun e => ret (error_reply e)).

(** ** The routing table *)

Inductive method : Type := GET | POST.

Inductive endpoint : Type :=
| Index | Health | ApiHealth | ApiValidate | ApiRegister | ApiResolve.

(** The [@app.route] decorators, in source order. *)
Definition url_map : list (string * method * endpoint) :=
  [ ("/", GET, Index);
    ("/health", GET, Health);
    ("/api/health", GET, ApiHealth);
    ("/api/validate", POST, ApiValidate);
    ("/api/register", POST, ApiRegister);
    ("/api/resolve", GET, ApiResolve) ].

Definition view_function (ep : endpoint) : Handler view_return :=
  match ep with
  | Index => index
  | Health => health
  | ApiHealth => api_health
  | ApiValidate => api_validate
  | ApiRegister => api_register
  | ApiResolve => api_resolve
  end.

Definition method_eqb (a b : method) : bool :=
  match a, b with
  | GET, GET | POST, POST => true
  | _, _ => false
  end.

Fixpoint match_rule (rules : list (string * method * endpoint)) (m : method) (path : string)
  : option endpoint :=
  match rules with
  | [] => None
  | (p, m', ep) :: rest =>
      if String.eqb p path && method_eqb m' m then Some ep else match_rule rest m path
  end.

(** The view that an [@app.route] line registers for this method and path,
    if any.  What Flask adds of its own accord (the answers to HEAD and
    OPTIONS, the [/static/<path>] rule) is not among these lines. *)
Definition dispatch (m : method) (path : string) : option endpoint :=
  match_rule url_map m path.

(** The routes under the "API PROXY ROUTES" banner. *)
Definition proxied (ep : endpoint) : bool :=
  match ep with
  | ApiHealth | ApiValidate | ApiRegister | ApiResolve => true
  | Index | Health => false
  end.

(** The proxied routes that read [request.json]. *)
Definition reads_body (ep : endpoint) : bool :=
  match ep with
  | ApiValidate | ApiRegister => true
  | _ => false
  end.

(** ** Application entry point *)

(** What the start-up script does to the outside world. *)
Inductive effect : Type :=
| Print (line : string)
| AppRun (host : string) (port : Z) (debug : bool).

(** A script either runs to its end or is cut short by [exit(code)]. *)
Inductive completion (A : Type) : Type :=
| SystemExit (code : Z)
| Done (a : A).
Arguments SystemExit {A} code.
Arguments Done {A} a.

Definition Script (A : Type) : Type := list effect -> completion A * list effect.

Definition skip : Script unit := fun tr => (Done tt, tr).

Definition seq {A : Type} (s : Script unit) (k : Script A) : Script A :=
  fun tr =>
    match s tr with
    | (Done _, tr') => k tr'
    | (SystemExit c, tr') => (SystemExit c, tr')
    end.

Definition print (line : string) : Script unit :=
  fun tr => (Done tt, (tr ++ [Print line])%list).

Definition exit (code : Z) : Script unit :=
  fun tr => (SystemExit code, tr).

(** [app.run(host=..., port=..., debug=...)] *)
Definition app_run (host : string) (port : Z) (debug : bool) : Script unit :=
  fun tr => (Done tt, (tr ++ [AppRun host port debug])%list).

Declare Scope script_scope.
Delimit Scope script_scope with script.
Notation "s ;;; k" := (seq s k) (at level 100, right associativity) : script_scope.

Definition LF : string := String "010"%char "".

(** [s * n] on strings. *)
Fixpoint str_mul (s : string) (n : nat) : string :=
  match n with
  | O => ""
  | S n' => s ++ str_mul s n'
  end.

(** The body of [if __name__ == '__main__':], given [os.path.exists]. *)
Definition main (path_exists : string -> bool) : Script unit :=
  ((if negb (path_exists HTML_FILE)
    then (print ("ERROR: " ++ HTML_FILE ++ " not found!") ;;; exit 1)
    else skip) ;;;
   print (LF ++ "ðŸš€ NeuraDNS UI Server (Flask)") ;;;
   print (str_mul "=" 40) ;;;
   print "ðŸ“¡ UI Server: http://0.0.0.0:8765" ;;;
   print ("ðŸ”— API Backend: " ++ API_BASE_URL) ;;;
   print ("ðŸ“„ Serving: " ++ HTML_FILE) ;;;
   print (LF ++ "Endpoints:") ;;;
   print "  GET  http://0.0.0.0:8765/         - UI" ;;;
   print "  GET  http://0.0.0.0:8765/health   - UI Health" ;;;
   print "  POST http://0.0.0.0:8765/api/register" ;;;
   print "  POST http://0.0.0.0:8765/api/validate" ;;;
   print "  GET  http://0.0.0.0:8765/api/resolve" ;;;
   print (LF ++ "âœ… Ready!" ++ LF) ;;;
   app_run "0.0.0.0" 8765 false)%script.

Definition start (path_exists : string -> bool) : completion unit * list effect :=
  main path_exists [].

Definition is_print (e : effect) : bool :=
  match e with
  | Print _ => true
  | AppRun _ _ _ => false
  end.

(** ** Reading a query argument back out of a URL *)

(** How the URL handed to [requests.get] divides into arguments, with the
    delimiters of RFC 3986 (the fragment starts at the first [#], the query
    at the first [?], pairs are separated by [&], key and value by the first
    [=]).  The values are the raw text between the delimiters: the
    re-quoting done by [requests] and the percent-decoding done by the
    backend leave the delimiters where they are and are not modelled. *)

(** [s.partition(c)]: the text before the first [c] and, when [c] occurs,
    the text after it. *)
Fixpoint partition (c : ascii) (s : string) : string * option string :=
  match s with
  | EmptyString => ("", None)
  | String a rest =>
      if Ascii.eqb a c then ("", Some rest)
      else let (before, after) := partition c rest in (String a before, after)
  end.

(** [s.split(c)] *)
Fixpoint split (c : ascii) (s : string) : list string :=
  match s with
  | EmptyString => [""]
  | String a rest =>
      if Ascii.eqb a c then "" :: split c rest
      else match split c rest with
           | [] => [String a ""]
           | piece :: pieces => String a piece :: pieces
           end
  end.

Fixpoint contains (c : ascii) (s : string) : bool :=
  match s with
  | EmptyString => false
  | String a rest => Ascii.eqb a c || contains c rest
  end.

Definition query_string (url : string) : string :=
  match partition "?" (fst (partition "#" url)) with
  | (_, Some q) => q
  | (_, None) => ""
  end.

Definition key_value (pair : string) : string * string :=
  match partition "=" pair with
  | (k, Some v) => (k, v)
  | (k, None) => (k, "")
  end.

Definition query_args (url : string) : list (string * string) :=
  map key_value (split "&" (query_string url)).

Definition query_value (key url : string) : option string :=
  dict_get key (query_args url).

(** ** Shapes of the values the gateway builds *)

Inductive kind : Type := KString | KInteger.

Definition has_kind (k : kind) (v : pyobj) : bool :=
  match k, v with
  | KString, PyStr _ => true
  | KInteger, PyInt _ => true
  | _, _ => false
  end.

Definition has_field (d : list (string * pyobj)) (f : string * kind) : bool :=
  match dict_get (fst f) d with
  | Some v => has_kind (snd f) v
  | None => false
  end.

Definition declared (shape : list (string * kind)) (kv : string * pyobj) : bool :=
  existsb (String.eqb (fst kv)) (map fst shape).

(** A dict conforms to a shape when it has every field of the shape, each of
    the right kind, and no other key. *)
Definition conforms (shape : list (string * kind)) (v : pyobj) : bool :=
  match v with
  | PyDict d => forallb (has_field d) shape && forallb (declared shape) d
  | _ => false
  end.

(** HealthStatus as the specification writes it:
    [{status: string, serviceName: string, port: integer}]. *)
Definition HealthStatus_spec : list (string * kind) :=
  [("status", KString); ("serviceName", KString); ("port", KInteger)].

(** HealthStatus as the docstring of [health] writes it. *)
Definition HealthStatus_doc : list (string * kind) :=
  [("status", KString); ("ui_server", KString); ("port", KInteger)].

(** ** What a proxied view amounts to *)

(** The backend path each proxied view targets. *)
Definition backend_path (ep : endpoint) : string :=
  match ep with
  | ApiHealth => "/health"
  | ApiValidate => "/validate"
  | ApiRegister => "/register"
  | ApiResolve => "/resolve"
  | Index | Health => ""
  end.

(** The call a proxied view prepares from the inbound request, or the
    exception raised while preparing it. *)
Definition prepared (ep : endpoint) (w : env) : result outbound :=
  match ep with
  | ApiHealth => Returned (HttpGet (API_BASE_URL ++ "/health"))
  | ApiResolve =>
      Returned (HttpGet (API_BASE_URL ++ "/resolve?domain="
                           ++ format (dict_get "domain" (req_args (inbound w)))))
  | ApiValidate | ApiRegister =>
      match req_json (inbound w) with
      | Returned j =>
          Returned (HttpPost (API_BASE_URL ++ backend_path ep) j
                      [("Content-Type", "application/json")])
      | Raised e => Raised e
      end
  | Index | Health => Raised (mkException "LookupError" "not a proxied route")
  end.

(** The reply that follows from the backend's answer to a first call [c]. *)
Definition relay (w : env) (c : outbound) : view_return :=
  match backend w [] c with
  | Raised e => error_reply e
  | Returned r =>
      match json r with
      | Raised e => error_reply e
      | Returned j => WithStatus (Value j) (status_code r)
      end
  end.

(** ** Sample worlds *)

Definition DQ : string := String "034"%char "".

Definition ok_answer : BackendResponse :=
  {| status_code := 200; json := Returned (PyDict [("status", PyStr "ok")]) |}.

Definition ConnectionError : Exception :=
  mkException "ConnectionError" "Connection refused".

Definition JSONDecodeError : Exception :=
  mkException "JSONDecodeError" "Expecting value: line 1 column 1 (char 0)".

Definition UnsupportedMediaType : Exception :=
  mkException "UnsupportedMediaType"
    "415 Unsupported Media Type: Did not attempt to load JSON data because the request Content-Type was not 'application/json'.".

Definition backend_up : Backend := fun _ _ => Returned ok_answer.
Definition backend_down : Backend := fun _ _ => Raised ConnectionError.
Definition backend_garbled : Backend :=
  fun _ _ => Returned {| status_code := 502; json := Raised JSONDecodeError |}.

Definition json_request : Request :=
  {| req_data := "{" ++ DQ ++ "domain" ++ DQ ++ ": " ++ DQ ++ "example.com" ++ DQ ++ ", "
                   ++ DQ ++ "ip" ++ DQ ++ ": " ++ DQ ++ "8.8.8.8" ++ DQ ++ "}";
     req_headers := [("Content-Type", "application/json")];
     req_json := Returned (PyDict [("domain", PyStr "example.com"); ("ip", PyStr "8.8.8.8")]);
     req_args := [("domain", "example.com")] |}.

Definition text_request : Request :=
  {| req_data := "domain=example.com";
     req_headers := [("Content-Type", "text/plain")];
     req_json := Raised UnsupportedMediaType;
     req_args := [] |}.

Definition no_files : StaticFiles := fun path _ => Raised (FileNotFoundError path).

Definition world (rq : Request) (b : Backend) : env :=
  {| inbound := rq; backend := b; static_file := no_files |}.

(** A caller asking to resolve the text [example.com&ip=6.6.6.6], sent as
    [GET /api/resolve?domain=example.com%26ip%3D6.6.6.6]. *)
Definition ampersand_request : Request :=
  {| req_data := "";
     req_headers := [];
     req_json := Raised UnsupportedMediaType;
     req_args := [("domain", "example.com&ip=6.6.6.6")] |}.

Definition static_present : string -> bool := fun path => String.eqb path "public/index.html".
Definition static_absent : string -> bool := fun _ => false.

(** ** Observing outbound calls and comparing worlds *)

Definition call_url (c : outbound) : string :=
  match c with
  | HttpGet url => url
  | HttpPost url _ _ => url
  end.

Definition call_method (c : outbound) : method :=
  match c with
  | HttpGet _ => GET
  | HttpPost _ _ _ => POST
  end.

(** Two worlds agree on what the view [ep] reads: the answer of
    [send_file] for [index], nothing for [health], the backend's answers for
    the proxied views, together with [request.json] for the POST views and
    the first [domain] argument for [api_resolve]. *)
Definition same_inputs (ep : endpoint) (w w' : env) : Prop :=
  match ep with
  | Index => static_file w HTML_FILE (inbound w) = static_file w' HTML_FILE (inbound w')
  | Health => True
  | ApiHealth => forall c, backend w [] c = backend w' [] c
  | ApiValidate | ApiRegister =>
      req_json (inbound w) = req_json (inbound w') /\
      forall c, backend w [] c = backend w' [] c
  | ApiResolve =>
      dict_get "domain" (req_args (inbound w)) = dict_get "domain" (req_args (inbound w')) /\
      forall c, backend w [] c = backend w' [] c
  end.

(** ** More sample worlds *)

Definition html_page : string := "<!DOCTYPE html><html><body>NeuraDNS</body></html>".

Definition static_files : StaticFiles :=
  fun path _ =>
    if String.eqb path "public/index.html"
    then Returned {| status := 200; mimetype := "text/html"; data := FileBody html_page |}
    else Raised (FileNotFoundError path).

(** The same question as [json_request] asks of [/api/resolve], buried
    among other arguments, a repeated [domain], a cookie and a body. *)
Definition noisy_request : Request :=
  {| req_data := "ignored";
     req_headers := [("Cookie", "session=1"); ("X-Forwarded-For", "10.0.0.1")];
     req_json := Raised UnsupportedMediaType;
     req_args := [("verbose", "1"); ("domain", "example.com"); ("domain", "other.org")] |}.

Definition hash_request : Request :=
  {| req_data := "";
     req_headers := [];
     req_json := Raised UnsupportedMediaType;
     req_args := [("domain", "example.com#ip=6.6.6.6")] |}.

(** Backends whose answer is JSON, but neither an object nor an array. *)
Definition backend_number : Backend :=
  fun _ _ => Returned {| status_code := 200; json := Returned (PyInt 42) |}.
Definition backend_null : Backend :=
  fun _ _ => Returned {| status_code := 200; json := Returned PyNone |}.
Definition backend_string : Backend :=
  fun _ _ => Returned {| status_code := 200; json := Returned (PyStr "hello") |}.



(** A backend that itself answers 500 with an error document. *)
Definition backend_failing : Backend :=
  fun _ _ => Returned {| status_code := 500;
                         json := Returned (PyDict [("error", PyStr "Connection refused")]) |}.

(** ** Kinds of values and of characters *)

(** The JSON values Flask makes a JSON reply of: objects and arrays. *)
Definition is_document (v : pyobj) : bool :=
  match v with
  | PyDict _ | PyList _ => true
  | _ => false
  end.

(** The query string a proxied view writes after the backend path. *)
Definition query_suffix (ep : endpoint) (w : env) : string :=
  match ep with
  | ApiResolve => "?domain=" ++ format (dict_get "domain" (req_args (inbound w)))
  | _ => ""
  end.

(** The unreserved characters of RFC 3986: letters, digits, [-], [.], [_]
    and [~].  They mean nothing in a URL, are left alone when a URL is
    re-quoted, and stand for themselves when it is decoded. *)
Definition unreserved (a : ascii) : bool :=
  let n := nat_of_ascii a in
  (Nat.leb 48 n && Nat.leb n 57) || (Nat.leb 65 n && Nat.leb n 90) ||
  (Nat.leb 97 n && Nat.leb n 122) ||
  Nat.eqb n 45 || Nat.eqb n 46 || Nat.eqb n 95 || Nat.eqb n 126.

Fixpoint all_chars (p : ascii -> bool) (s : string) : bool :=
  match s with
  | EmptyString => true
  | String a rest => p a && all_chars p rest
  end.

(** * Properties *)

(** ** The handler monad *)

Lemma run_ret {A : Type} (a : A) (w : env) : run (ret a) w = (Returned a, []).
Proof. reflexivity. Qed.

Lemma try_except_returned {A : Type} (b : Handler A) (h : Exception -> Handler A)
      (w : env) (log log' : list outbound) (a : A) :
  b w log = (Returned a, log') -> try_except b h w log = (Returned a, log').
Proof. unfold try_except. intros ->. reflexivity. Qed.

Lemma try_except_raised {A : Type} (b : Handler A) (h : Exception -> Handler A)
      (w : env) (log log' : list outbound) (e : Exception) :
  b w log = (Raised e, log') -> try_except b h w log = h e w log'.
Proof. unfold try_except. intros ->. reflexivity. Qed.

(** A body protected by a handler that returns cannot raise. *)
Lemma try_except_total {A : Type} (b : Handler A) (f : Exception -> A)
      (w : env) (log : list outbound) :
  exists a, fst (try_except b (fun e => ret (f e)) w log) = Returned a.
Proof.
  unfold try_except, ret.
  destruct (b w log) as [[e | a] log']; simpl; eauto.
Qed.

(** Left alone, the body of a proxied view does raise. *)
Lemma unprotected_body_raises :
  outcome (response <- requests.get (API_BASE_URL ++ "/health") ;;
           j <- response_json response ;;
           ret (WithStatus (Value j) (status_code response)))
          (world json_request backend_down)
  = Raised ConnectionError.
Proof. reflexivity. Qed.

(** ** Routing *)

Lemma proxied_routes (ep : endpoint) :
  proxied ep = true <->
  dispatch GET "/api/health" = Some ep \/ dispatch POST "/api/validate" = Some ep \/
  dispatch POST "/api/register" = Some ep \/ dispatch GET "/api/resolve" = Some ep.
Proof.
  split.
  - destruct ep; simpl; intros H; try discriminate H; cbv; tauto.
  - intros [H | [H | [H | H]]]; vm_compute in H; injection H as <-; reflexivity.
Qed.

Lemma local_routes :
  dispatch GET "/" = Some Index /\ dispatch GET "/health" = Some Health.
Proof. split; reflexivity. Qed.

(** ** Every proxied view is: prepare one call, make it, relay *)

Ltac unfold_views :=
  unfold run, view_function, api_health, api_validate, api_register, api_resolve,
         try_except, bind, ret, requests.get, requests.post, response_json,
         request.json, request.args_get, relay, prepared, backend_path.

Lemma proxy_run (ep : endpoint) (w : env) :
  proxied ep = true ->
  run (view_function ep) w =
  match prepared ep w with
  | Returned c => (Returned (relay w c), [c])
  | Raised e => (Returned (error_reply e), [])
  end.
Proof.
  destruct ep; intros H; try discriminate H; unfold_views; simpl.
  - destruct (backend w [] _) as [e | r]; [reflexivity |].
    destruct (json r); reflexivity.
  - destruct (req_json (inbound w)) as [e | j]; [reflexivity |].
    simpl. destruct (backend w [] _) as [e | r]; [reflexivity |].
    destruct (json r); reflexivity.
  - destruct (req_json (inbound w)) as [e | j]; [reflexivity |].
    simpl. destruct (backend w [] _) as [e | r]; [reflexivity |].
    destruct (json r); reflexivity.
  - destruct (backend w [] _) as [e | r]; [reflexivity |].
    destruct (json r); reflexivity.
Qed.

Lemma proxy_calls (ep : endpoint) (w : env) :
  proxied ep = true ->
  calls (view_function ep) w =
  match prepared ep w with Returned c => [c] | Raised _ => [] end.
Proof.
  intros H. unfold calls. rewrite (proxy_run ep w H).
  destruct (prepared ep w); reflexivity.
Qed.

Lemma proxy_outcome (ep : endpoint) (w : env) :
  proxied ep = true ->
  outcome (view_function ep) w =
  match prepared ep w with
  | Returned c => Returned (relay w c)
  | Raised e => Returned (error_reply e)
  end.
Proof.
  intros H. unfold outcome. rewrite (proxy_run ep w H).
  destruct (prepared ep w); reflexivity.
Qed.

(** When exactly the call [c] was logged, [c] is the prepared call. *)
Lemma sole_call_prepared (ep : endpoint) (w : env) (c : outbound) :
  proxied ep = true ->
  calls (view_function ep) w = [c] -> prepared ep w = Returned c.
Proof.
  intros H Hc. rewrite (proxy_calls ep w H) in Hc.
  destruct (prepared ep w); [discriminate Hc | congruence].
Qed.

Lemma prepared_without_body (ep : endpoint) (w : env) :
  proxied ep = true -> reads_body ep = false -> exists c, prepared ep w = Returned c.
Proof.
  destruct ep; simpl; intros H H'; try discriminate; eauto.
Qed.

Lemma error_reply_shape (e : Exception) :
  returned_status (error_reply e) = 500 /\
  returned_json (error_reply e) = Some (PyDict [("error", PyStr (str e))]).
Proof. split; reflexivity. Qed.

(** ** Relay of the backend's answer *)

(** C1.  Not every JSON body is relayed.  Asked for [/api/health] while the
    backend answers 200 with the JSON number 42, [api_health] makes its call
    and returns the pair (42, 200); Flask refuses that value with a
    [TypeError] once the view has returned, and the caller receives the HTML
    page of a 500 instead of status 200 with the body 42.  A JSON string is
    sent on under its status, but as an HTML body and not as JSON. *)
Theorem scalar_body_is_not_relayed :
  calls (view_function ApiHealth) (world text_request backend_number)
  = [HttpGet "http://localhost:3007/health"] /\
  outcome (view_function ApiHealth) (world text_request backend_number)
  = Returned (WithStatus (Value (PyInt 42)) 200) /\
  make_response (WithStatus (Value (PyInt 42)) 200) = Raised TypeError /\
  reply_to (WithStatus (Value (PyInt 42)) 200) = internal_server_error /\
  returned_status (WithStatus (Value (PyInt 42)) 200) = 500 /\
  returned_json (WithStatus (Value (PyInt 42)) 200) = None /\
  outcome (view_function ApiHealth) (world text_request backend_string)
  = Returned (WithStatus (Value (PyStr "hello")) 200) /\
  reply_to (WithStatus (Value (PyStr "hello")) 200)
  = {| status := 200; mimetype := "text/html"; data := TextBody "hello" |} /\
  returned_json (WithStatus (Value (PyStr "hello")) 200) = None.
Proof. repeat split. Qed.

(** ** Transport failures *)




(** ** What escapes a proxied view *)

(** C3.  The [try] of a proxied view does not cover what Flask does with the
    value the view returns.  Asked to validate a domain while the backend
    answers 200 with the JSON value [null], [api_validate] raises nothing
    and returns the pair (None, 200); Flask then raises [TypeError] outside
    the view, and the caller receives the HTML page of a 500: neither the
    backend's payload nor the [{"error": ...}] document. *)
Theorem null_body_crashes_after_the_view :
  calls (view_function ApiValidate) (world json_request backend_null)
  = [HttpPost "http://localhost:3007/validate"
       (PyDict [("domain", PyStr "example.com"); ("ip", PyStr "8.8.8.8")])
       [("Content-Type", "application/json")]] /\
  outcome (view_function ApiValidate) (world json_request backend_null)
  = Returned (WithStatus (Value PyNone) 200) /\
  make_response (WithStatus (Value PyNone) 200) = Raised TypeError /\
  reply_to (WithStatus (Value PyNone) 200) = internal_server_error /\
  mimetype (reply_to (WithStatus (Value PyNone) 200)) = "text/html" /\
  returned_status (WithStatus (Value PyNone) 200) = 500 /\
  returned_json (WithStatus (Value PyNone) 200) = None.
Proof. repeat split. Qed.

(** ** The local health endpoint *)

(** C4.  [GET /health] is routed to [health], which in every world returns
    status 200 with exactly the body
    [{"status": "running", "ui_server": "Flask", "port": 8765}] and makes no
    call to the backend. *)
Theorem health_is_constant (w : env) :
  dispatch GET "/health" = Some Health /\
  exists rv,
    outcome (view_function Health) w = Returned rv /\
    returned_status rv = 200 /\
    returned_json rv = Some (PyDict [("status", PyStr "running");
                                     ("ui_server", PyStr "Flask");
                                     ("port", PyInt 8765)]) /\
    calls (view_function Health) w = [].
Proof.
  split; [reflexivity |].
  exists (Bare (Resp (jsonify health_body))). repeat split.
Qed.

(** ** One attempt per inbound request *)

Lemma local_calls (ep : endpoint) (w : env) :
  proxied ep = false -> calls (view_function ep) w = [].
Proof.
  destruct ep; intros H; try discriminate H.
  - unfold calls, run, view_function, index, bind, send_file, ret.
    destruct (static_file w HTML_FILE (inbound w)); reflexivity.
  - reflexivity.
Qed.

(** C7.  Every view makes at most one call to the backend per inbound
    request: none on [/] and [/health], and exactly one on a proxied route
    once its request is prepared, whatever the backend answers, so a failed
    call is never tried again. *)
Theorem at_most_one_backend_call (ep : endpoint) (w : env) :
  (length (calls (view_function ep) w) <= 1)%nat /\
  (proxied ep = false -> calls (view_function ep) w = []) /\
  (proxied ep = true ->
   (reads_body ep = true -> exists j, req_json (inbound w) = Returned j) ->
   exists c, prepared ep w = Returned c /\ calls (view_function ep) w = [c]).
Proof.
  split; [| split].
  - destruct (proxied ep) eqn:Hp.
    + rewrite (proxy_calls ep w Hp). destruct (prepared ep w); simpl; lia.
    + rewrite (local_calls ep w Hp). simpl; lia.
  - apply local_calls.
  - intros Hp Hbody. rewrite (proxy_calls ep w Hp).
    destruct (reads_body ep) eqn:Hr.
    + destruct (Hbody eq_refl) as [j Hj].
      destruct ep; try discriminate; simpl; rewrite Hj; eauto.
    + destruct (prepared_without_body ep w Hp Hr) as [c Hc].
      rewrite Hc. eauto.
Qed.

Lemma at_most_one_backend_call_witness :
  exists c,
    prepared ApiValidate (world json_request backend_down) = Returned c /\
    calls (view_function ApiValidate) (world json_request backend_down) = [c].
Proof.
  apply (at_most_one_backend_call ApiValidate (world json_request backend_down)).
  - reflexivity.
  - intros _. eexists. reflexivity.
Defined.

(** ** What the POST views send *)

(** C9.  [/api/validate] and [/api/register] send the value of
    [request.json], under the fixed header [Content-Type: application/json],
    and nothing of the caller's raw body or headers: two requests with the
    same [request.json] are handled alike.  When [request.json] raises (the
    body is not JSON, or is not declared as JSON), the view returns the 500
    [{"error": ...}] reply and makes no call to the backend. *)
Theorem post_views_send_parsed_json (ep : endpoint) (w : env) :
  reads_body ep = true ->
  (forall j, req_json (inbound w) = Returned j ->
     calls (view_function ep) w =
     [HttpPost (API_BASE_URL ++ backend_path ep) j [("Content-Type", "application/json")]]) /\
  (forall w', req_json (inbound w') = req_json (inbound w) ->
              backend w' = backend w ->
              run (view_function ep) w' = run (view_function ep) w) /\
  (forall e, req_json (inbound w) = Raised e ->
     outcome (view_function ep) w = Returned (error_reply e) /\
     returned_status (error_reply e) = 500 /\
     calls (view_function ep) w = []).
Proof.
  intros Hr.
  assert (Hp : proxied ep = true) by (destruct ep; try discriminate Hr; reflexivity).
  split; [| split].
  - intros j Hj. rewrite (proxy_calls ep w Hp).
    destruct ep; try discriminate Hr; simpl; rewrite Hj; reflexivity.
  - intros w' Hj Hb. rewrite (proxy_run ep w' Hp), (proxy_run ep w Hp).
    unfold relay. rewrite Hb.
    destruct ep; try discriminate Hr; simpl; rewrite Hj; reflexivity.
  - intros e He. rewrite (proxy_outcome ep w Hp), (proxy_calls ep w Hp).
    destruct ep; try discriminate Hr; simpl; rewrite He; repeat split.
Qed.

Lemma post_views_send_parsed_json_witness :
  calls (view_function ApiValidate) (world json_request backend_up) =
  [HttpPost "http://localhost:3007/validate"
     (PyDict [("domain", PyStr "example.com"); ("ip", PyStr "8.8.8.8")])
     [("Content-Type", "application/json")]]
  /\
  (outcome (view_function ApiRegister) (world text_request backend_up)
   = Returned (error_reply UnsupportedMediaType) /\
   returned_status (error_reply UnsupportedMediaType) = 500 /\
   calls (view_function ApiRegister) (world text_request backend_up) = []).
Proof.
  split.
  - apply (post_views_send_parsed_json ApiValidate (world json_request backend_up));
      reflexivity.
  - apply (post_views_send_parsed_json ApiRegister (world text_request backend_up));
      reflexivity.
Defined.

(** ** The resolve view *)

Lemma api_resolve_calls (w : env) :
  calls api_resolve w =
  [HttpGet (API_BASE_URL ++ "/resolve?domain="
              ++ format (dict_get "domain" (req_args (inbound w))))].
Proof. exact (proxy_calls ApiResolve w eq_refl). Qed.

(** C10.  When the inbound request has no [domain] argument,
    [request.args.get] gives [None], the view still makes its call, and the
    URL it requests is [<backend>/resolve?domain=None]; the reply is the
    relay of the backend's answer to that call. *)
Theorem resolve_without_domain_sends_None (w : env) :
  dict_get "domain" (req_args (inbound w)) = None ->
  calls api_resolve w = [HttpGet "http://localhost:3007/resolve?domain=None"] /\
  query_value "domain" "http://localhost:3007/resolve?domain=None" = Some "None" /\
  outcome api_resolve w =
  Returned (relay w (HttpGet "http://localhost:3007/resolve?domain=None")).
Proof.
  intros Hnone. split; [| split].
  - rewrite api_resolve_calls, Hnone. reflexivity.
  - reflexivity.
  - change api_resolve with (view_function ApiResolve).
    rewrite (proxy_outcome ApiResolve w eq_refl). simpl. rewrite Hnone. reflexivity.
Qed.

Lemma resolve_without_domain_sends_None_witness :
  calls api_resolve (world text_request backend_up)
  = [HttpGet "http://localhost:3007/resolve?domain=None"] /\
  query_value "domain" "http://localhost:3007/resolve?domain=None" = Some "None" /\
  outcome api_resolve (world text_request backend_up) =
  Returned (relay (world text_request backend_up)
                  (HttpGet "http://localhost:3007/resolve?domain=None")).
Proof.
  apply (resolve_without_domain_sends_None (world text_request backend_up)).
  reflexivity.
Defined.

(** *** Which domains survive the trip *)

Lemma partition_absent (c : ascii) (s : string) :
  contains c s = false -> partition c s = (s, None).
Proof.
  induction s as [| a s IH]; simpl; intros H.
  - reflexivity.
  - apply orb_false_iff in H as [Ha Hs].
    rewrite Ha, (IH Hs). reflexivity.
Qed.

Lemma split_absent (c : ascii) (s : string) :
  contains c s = false -> split c s = [s].
Proof.
  induction s as [| a s IH]; simpl; intros H.
  - reflexivity.
  - apply orb_false_iff in H as [Ha Hs].
    rewrite Ha, (IH Hs). reflexivity.
Qed.

Lemma partition_present (c : ascii) (s : string) :
  contains c s = true ->
  exists before after,
    partition c s = (before, Some after) /\
    s = before ++ String c after /\ contains c before = false.
Proof.
  induction s as [| a s IH]; simpl; intros H.
  - discriminate H.
  - destruct (Ascii.eqb a c) eqn:Ha.
    + apply Ascii.eqb_eq in Ha. subst a. exists "", s. repeat split.
    + destruct (IH H) as (b & t & Hp & Hs & Hb).
      rewrite Hp. exists (String a b), t. simpl. rewrite Ha, Hb, <- Hs. repeat split.
Qed.

(** In the URL built for a domain without [&] and [#], the raw text of the
    [domain] argument is the domain as it was given. *)
Lemma plain_domain_is_forwarded (v : string) :
  contains "&" v = false -> contains "#" v = false ->
  query_value "domain" (API_BASE_URL ++ "/resolve?domain=" ++ format (Some v)) = Some v.
Proof.
  intros Hamp Hhash.
  unfold query_value, query_args, query_string, API_BASE_URL, format.
  rewrite (partition_absent "#") by (simpl; exact Hhash).
  simpl.
  rewrite (split_absent "&") by (simpl; exact Hamp).
  reflexivity.
Qed.

Lemma split_partition (c : ascii) (s : string) :
  split c s = match partition c s with
              | (before, None) => [before]
              | (before, Some after) => before :: split c after
              end.
Proof.
  induction s as [| a s IH]; simpl.
  - reflexivity.
  - destruct (Ascii.eqb a c); [reflexivity |].
    rewrite IH. destruct (partition c s) as [b [t |]]; reflexivity.
Qed.

Lemma append_cons_neq (b t : string) (c : ascii) : b <> b ++ String c t.
Proof.
  induction b as [| a b IH]; simpl.
  - discriminate.
  - intros H. injection H as H. exact (IH H).
Qed.

(** A domain with an [&] reaches the backend cut short at its first [&]. *)
Lemma ampersand_cuts_domain (v : string) :
  contains "#" v = false -> contains "&" v = true ->
  exists kept rest,
    v = kept ++ String "&" rest /\
    query_value "domain" (API_BASE_URL ++ "/resolve?domain=" ++ format (Some v)) = Some kept /\
    kept <> v.
Proof.
  intros Hhash Hamp.
  destruct (partition_present "&" v Hamp) as (kept & rest & Hp & Hv & _).
  exists kept, rest. split; [exact Hv |]. split.
  - unfold query_value, query_args, query_string, API_BASE_URL, format.
    rewrite (partition_absent "#") by (simpl; exact Hhash).
    simpl. rewrite split_partition. simpl. rewrite Hp. reflexivity.
  - rewrite Hv. apply append_cons_neq.
Qed.

(** C6.  The resolve view pastes the [domain] argument into the backend URL
    as it is, so a reserved character keeps its meaning there: asked for
    [example.com&ip=6.6.6.6], the view requests
    [<backend>/resolve?domain=example.com&ip=6.6.6.6], in which the [domain]
    argument reads [example.com] and a second argument [ip] has appeared. *)
Theorem resolve_cuts_domain_at_ampersand :
  dict_get "domain" (req_args ampersand_request) = Some "example.com&ip=6.6.6.6" /\
  calls api_resolve (world ampersand_request backend_up)
  = [HttpGet "http://localhost:3007/resolve?domain=example.com&ip=6.6.6.6"] /\
  query_value "domain" "http://localhost:3007/resolve?domain=example.com&ip=6.6.6.6"
  = Some "example.com" /\
  query_value "ip" "http://localhost:3007/resolve?domain=example.com&ip=6.6.6.6"
  = Some "6.6.6.6".
Proof. repeat split. Qed.

(** ** The shape of the health document *)

(** C8, as stated, fails: the document built by [health] is not a
    HealthStatus as the specification writes it, for it has no field
    [serviceName]. *)
Lemma health_body_lacks_serviceName :
  conforms HealthStatus_spec health_body = false /\
  exists d, health_body = PyDict d /\ dict_get "serviceName" d = None.
Proof.
  split; [reflexivity |].
  eexists; split; reflexivity.
Qed.

(** C8 (amended).  The document [health] returns has the shape
    [{status: string, ui_server: string, port: integer}]: exactly these three
    fields, the second one named [ui_server], and none named [serviceName]. *)
Theorem health_body_shape (w : env) :
  exists rv d,
    outcome health w = Returned rv /\
    returned_json rv = Some (PyDict d) /\
    conforms HealthStatus_doc (PyDict d) = true /\
    map fst d = ["status"; "ui_server"; "port"] /\
    dict_get "ui_server" d = Some (PyStr "Flask") /\
    dict_get "serviceName" d = None.
Proof.
  exists (Bare (Resp (jsonify health_body))).
  eexists. repeat split.
Qed.

(** ** Start-up *)

(** C5.  When the static file does not exist at start-up, the script prints
    one error line and exits with code 1, and [app.run] is never reached;
    when it exists, the script prints its banner, is not cut short, and ends
    by calling [app.run] on host 0.0.0.0, port 8765. *)
Theorem startup_requires_static_file (path_exists : string -> bool) :
  (path_exists HTML_FILE = false ->
   exists code,
     start path_exists = (SystemExit code, [Print "ERROR: public/index.html not found!"]) /\
     code <> 0 /\
     forall host port debug, ~ In (AppRun host port debug) (snd (start path_exists))) /\
  (path_exists HTML_FILE = true ->
   exists banner,
     start path_exists = (Done tt, (banner ++ [AppRun "0.0.0.0" 8765 false])%list) /\
     forallb is_print banner = true).
Proof.
  split; intros H.
  - exists 1. unfold start, main, seq. rewrite H. simpl.
    repeat split; [lia |].
    intros host port debug [Hin | []]. discriminate Hin.
  - unfold start, main, seq, print, app_run, skip. rewrite H. simpl.
    eexists (_ :: _ :: _ :: _ :: _ :: _ :: _ :: _ :: _ :: _ :: _ :: _ :: []).
    split; reflexivity.
Qed.

Lemma startup_requires_static_file_witness :
  (exists code,
     start static_absent = (SystemExit code, [Print "ERROR: public/index.html not found!"]) /\
     code <> 0 /\
     forall host port debug, ~ In (AppRun host port debug) (snd (start static_absent))) /\
  (exists banner,
     start static_present = (Done tt, (banner ++ [AppRun "0.0.0.0" 8765 false])%list) /\
     forallb is_print banner = true).
Proof.
  split.
  - apply (startup_requires_static_file static_absent). reflexivity.
  - apply (startup_requires_static_file static_present). reflexivity.
Defined.

(** * Further properties of the views *)

(** ** When a view raises *)



(** ** Where the proxied views call *)

(** X4.  A proxied route registered as [/api/X] under method [m], once its
    request is prepared, makes one call: with the same method [m], to the
    URL [<API_BASE_URL>/X] followed by nothing, or for [api_resolve] by
    [?domain=] and the domain as given.  Whatever the inbound request
    holds, the part of the URL before the first [?] (scheme, host, port and
    path) is [<API_BASE_URL>/X]. *)
Theorem proxied_call_target (m : method) (path : string) (ep : endpoint) (w : env) :
  In (path, m, ep) url_map ->
  proxied ep = true ->
  (reads_body ep = true -> exists j, req_json (inbound w) = Returned j) ->
  path = "/api" ++ backend_path ep /\
  exists c,
    calls (view_function ep) w = [c] /\
    call_method c = m /\
    call_url c = API_BASE_URL ++ backend_path ep ++ query_suffix ep w /\
    fst (partition "?" (call_url c)) = API_BASE_URL ++ backend_path ep.
Proof.
  intros Hin Hp Hbody.
  rewrite (proxy_calls ep w Hp).
  simpl in Hin.
  repeat (destruct Hin as [Hin | Hin];
          [injection Hin as <- <- <-; try discriminate Hp |]); try contradiction.
  - split; [reflexivity |]. eexists. repeat split.
  - destruct (Hbody eq_refl) as [j Hj]. split; [reflexivity |].
    simpl. rewrite Hj. eexists. repeat split.
  - destruct (Hbody eq_refl) as [j Hj]. split; [reflexivity |].
    simpl. rewrite Hj. eexists. repeat split.
  - split; [reflexivity |]. eexists. repeat split.
Qed.

Lemma proxied_call_target_witness :
  "/api/resolve" = "/api" ++ backend_path ApiResolve /\
  exists c,
    calls (view_function ApiResolve) (world ampersand_request backend_down) = [c] /\
    call_method c = GET /\
    call_url c = API_BASE_URL ++ backend_path ApiResolve
                 ++ query_suffix ApiResolve (world ampersand_request backend_down) /\
    fst (partition "?" (call_url c)) = API_BASE_URL ++ backend_path ApiResolve.
Proof.
  apply (proxied_call_target GET "/api/resolve" ApiResolve
           (world ampersand_request backend_down)).
  - simpl. tauto.
  - reflexivity.
  - discriminate.
Defined.

(** ** What a view reads *)

(** X5.  What a view returns and the calls it makes depend only on what
    [same_inputs] lists.  For [health] and the proxied views, the inbound
    headers, cookies and raw body, and every query argument other than the
    first [domain], never influence them; [index] hands back what
    [send_file] answers. *)
Theorem view_reads_only_its_inputs (ep : endpoint) (w w' : env) :
  same_inputs ep w w' ->
  run (view_function ep) w = run (view_function ep) w'.
Proof.
  destruct ep; simpl; intros H.
  - unfold run, view_function, index, bind, send_file, ret. rewrite H. reflexivity.
  - reflexivity.
  - change api_health with (view_function ApiHealth).
    rewrite !proxy_run by reflexivity. simpl. unfold relay. rewrite H. reflexivity.
  - destruct H as [Hj Hb]. change api_validate with (view_function ApiValidate).
    rewrite !proxy_run by reflexivity. simpl. rewrite Hj.
    destruct (req_json (inbound w')); [reflexivity |].
    unfold relay. rewrite Hb. reflexivity.
  - destruct H as [Hj Hb]. change api_register with (view_function ApiRegister).
    rewrite !proxy_run by reflexivity. simpl. rewrite Hj.
    destruct (req_json (inbound w')); [reflexivity |].
    unfold relay. rewrite Hb. reflexivity.
  - destruct H as [Hd Hb]. change api_resolve with (view_function ApiResolve).
    rewrite !proxy_run by reflexivity. simpl. rewrite Hd.
    unfold relay. rewrite Hb. reflexivity.
Qed.

Lemma view_reads_only_its_inputs_witness :
  run (view_function ApiResolve) (world json_request backend_up)
  = run (view_function ApiResolve)
        {| inbound := noisy_request; backend := backend_up; static_file := static_files |}.
Proof.
  apply (view_reads_only_its_inputs ApiResolve).
  split; [reflexivity | intros c; reflexivity].
Defined.

(** ** Telling the gateway's failures from the backend's *)

(** X6.  A caller cannot tell, from the status and the JSON document alone,
    a transport failure with message [m] from a backend that answered the
    same call with status 500 and the document [{"error": m}]. *)
Theorem failure_looks_like_backend_500 (ep : endpoint) (w1 w2 : env)
        (c : outbound) (e : Exception) :
  proxied ep = true ->
  calls (view_function ep) w1 = [c] ->
  calls (view_function ep) w2 = [c] ->
  backend w1 [] c = Raised e ->
  backend w2 [] c =
    Returned {| status_code := 500;
                json := Returned (PyDict [("error", PyStr (str e))]) |} ->
  exists rv1 rv2,
    outcome (view_function ep) w1 = Returned rv1 /\
    outcome (view_function ep) w2 = Returned rv2 /\
    rv1 <> rv2 /\
    returned_status rv1 = returned_status rv2 /\
    returned_json rv1 = returned_json rv2.
Proof.
  intros Hp Hc1 Hc2 Hb1 Hb2.
  exists (error_reply e),
         (WithStatus (Value (PyDict [("error", PyStr (str e))])) 500).
  rewrite !proxy_outcome by exact Hp.
  rewrite (sole_call_prepared ep w1 c Hp Hc1), (sole_call_prepared ep w2 c Hp Hc2).
  unfold relay. rewrite Hb1, Hb2. simpl.
  repeat split. discriminate.
Qed.

Lemma failure_looks_like_backend_500_witness :
  exists rv1 rv2,
    outcome (view_function ApiHealth) (world text_request backend_down) = Returned rv1 /\
    outcome (view_function ApiHealth) (world text_request backend_failing) = Returned rv2 /\
    rv1 <> rv2 /\
    returned_status rv1 = returned_status rv2 /\
    returned_json rv1 = returned_json rv2.
Proof.
  apply (failure_looks_like_backend_500 ApiHealth
           (world text_request backend_down) (world text_request backend_failing)
           (HttpGet "http://localhost:3007/health") ConnectionError); reflexivity.
Defined.

(** ** What the backend reads in the URL built by [api_resolve] *)

Lemma partition_at (c : ascii) (kept rest : string) :
  contains c kept = false ->
  partition c (kept ++ String c rest) = (kept, Some rest).
Proof.
  induction kept as [| a kept IH]; simpl; intros H.
  - rewrite Ascii.eqb_refl. reflexivity.
  - apply orb_false_iff in H as [Ha Hk].
    rewrite Ha, (IH Hk). reflexivity.
Qed.

Lemma resolve_query_string (v : string) :
  contains "#" v = false ->
  query_string (API_BASE_URL ++ "/resolve?domain=" ++ v) = "domain=" ++ v.
Proof.
  intros Hhash. unfold query_string, API_BASE_URL.
  rewrite (partition_absent "#") by (simpl; exact Hhash).
  reflexivity.
Qed.

(** A character that is not unreserved does not occur in a string of
    unreserved characters. *)
Lemma unreserved_absent (c : ascii) (s : string) :
  unreserved c = false -> all_chars unreserved s = true -> contains c s = false.
Proof.
  intros Hc. induction s as [| a s IH]; simpl; intros H.
  - reflexivity.
  - apply andb_true_iff in H as [Ha Hs].
    rewrite (IH Hs), orb_false_r.
    destruct (Ascii.eqb a c) eqn:Hac; [| reflexivity].
    apply Ascii.eqb_eq in Hac. congruence.
Qed.

(** X7.  A [domain] value made only of letters, digits, [-], [.], [_] and
    [~] (every host name is one, and so is the empty string) makes the round
    trip: [api_resolve] requests [<API_BASE_URL>/resolve?domain=] followed by
    the value, a URL with exactly one argument, [domain], that reads back as
    the value the caller gave. *)
Theorem resolve_forwards_plain_domain (w : env) (v : string) :
  dict_get "domain" (req_args (inbound w)) = Some v ->
  all_chars unreserved v = true ->
  exists url,
    calls api_resolve w = [HttpGet url] /\
    url = API_BASE_URL ++ "/resolve?domain=" ++ v /\
    query_args url = [("domain", v)] /\
    query_value "domain" url = Some v.
Proof.
  intros Harg Hplain.
  assert (Hamp : contains "&" v = false)
    by (apply (unreserved_absent "&" v); [reflexivity | exact Hplain]).
  assert (Hhash : contains "#" v = false)
    by (apply (unreserved_absent "#" v); [reflexivity | exact Hplain]).
  exists (API_BASE_URL ++ "/resolve?domain=" ++ v).
  split; [| split; [| split]].
  - rewrite api_resolve_calls, Harg. reflexivity.
  - reflexivity.
  - unfold query_args. rewrite (resolve_query_string v Hhash).
    rewrite (split_absent "&") by (simpl; exact Hamp).
    reflexivity.
  - unfold query_value, query_args. rewrite (resolve_query_string v Hhash).
    rewrite (split_absent "&") by (simpl; exact Hamp).
    reflexivity.
Qed.

Lemma resolve_forwards_plain_domain_witness :
  exists url,
    calls api_resolve (world json_request backend_up) = [HttpGet url] /\
    url = API_BASE_URL ++ "/resolve?domain=" ++ "example.com" /\
    query_args url = [("domain", "example.com")] /\
    query_value "domain" url = Some "example.com".
Proof.
  apply (resolve_forwards_plain_domain (world json_request backend_up) "example.com");
    reflexivity.
Defined.

(** X8.  A [domain] value of the form [kept&rest] is split by the backend
    at its first [&]: [domain] reads [kept], and whatever the caller wrote
    in [rest] arrives as further arguments of the backend call. *)
Theorem resolve_ampersand_adds_arguments (w : env) (kept rest : string) :
  dict_get "domain" (req_args (inbound w)) = Some (kept ++ "&" ++ rest) ->
  contains "&" kept = false ->
  contains "#" (kept ++ "&" ++ rest) = false ->
  exists url,
    calls api_resolve w = [HttpGet url] /\
    query_args url = ("domain", kept) :: map key_value (split "&" rest) /\
    query_value "domain" url = Some kept.
Proof.
  intros Harg Hamp Hhash.
  exists (API_BASE_URL ++ "/resolve?domain=" ++ kept ++ "&" ++ rest).
  assert (Hargs : query_args (API_BASE_URL ++ "/resolve?domain=" ++ kept ++ "&" ++ rest)
                  = ("domain", kept) :: map key_value (split "&" rest)).
  { unfold query_args. rewrite (resolve_query_string _ Hhash).
    rewrite split_partition. simpl.
    rewrite (partition_at "&" kept rest Hamp). simpl.
    unfold key_value at 1. simpl. reflexivity. }
  split; [| split].
  - rewrite api_resolve_calls, Harg. reflexivity.
  - exact Hargs.
  - unfold query_value. rewrite Hargs. reflexivity.
Qed.

Lemma resolve_ampersand_adds_arguments_witness :
  exists url,
    calls api_resolve (world ampersand_request backend_up) = [HttpGet url] /\
    query_args url = ("domain", "example.com") :: map key_value (split "&" "ip=6.6.6.6") /\
    query_value "domain" url = Some "example.com".
Proof.
  apply (resolve_ampersand_adds_arguments (world ampersand_request backend_up)
           "example.com" "ip=6.6.6.6"); reflexivity.
Defined.

(** X9.  A [domain] value of the form [kept#rest] loses everything from its
    first [#] on: the URL [api_resolve] requests has the query string
    [domain=kept], the same arguments as if the caller had asked for [kept]. *)
Theorem resolve_hash_drops_rest (w : env) (kept rest : string) :
  dict_get "domain" (req_args (inbound w)) = Some (kept ++ "#" ++ rest) ->
  contains "#" kept = false ->
  exists url,
    calls api_resolve w = [HttpGet url] /\
    query_string url = "domain=" ++ kept /\
    query_args url = query_args (API_BASE_URL ++ "/resolve?domain=" ++ kept).
Proof.
  intros Harg Hhash.
  exists (API_BASE_URL ++ "/resolve?domain=" ++ kept ++ "#" ++ rest).
  assert (Hq : query_string (API_BASE_URL ++ "/resolve?domain=" ++ kept ++ "#" ++ rest)
               = "domain=" ++ kept).
  { unfold query_string, API_BASE_URL. simpl.
    rewrite (partition_at "#" kept rest Hhash). simpl.
    reflexivity. }
  split; [| split].
  - rewrite api_resolve_calls, Harg. reflexivity.
  - exact Hq.
  - unfold query_args. rewrite Hq, (resolve_query_string kept Hhash). reflexivity.
Qed.

Lemma resolve_hash_drops_rest_witness :
  exists url,
    calls api_resolve (world hash_request backend_up) = [HttpGet url] /\
    query_string url = "domain=" ++ "example.com" /\
    query_args url = query_args (API_BASE_URL ++ "/resolve?domain=" ++ "example.com").
Proof.
  apply (resolve_hash_drops_rest (world hash_request backend_up)
           "example.com" "ip=6.6.6.6"); reflexivity.
Defined.

(** ** Relay of objects and arrays *)

(** X10.  For every proxied route, once the call [c] to the backend is
    prepared, if the backend answers it with status [S] and a body that
    decodes to a JSON object or array [B], then [c] is the one call the view
    makes, the view returns the pair [(B, S)], and the response Flask builds
    from it has status [S] and the JSON body [B], whatever [S] is. *)
Theorem document_body_is_relayed (ep : endpoint) (w : env) (c : outbound)
        (r : BackendResponse) (B : pyobj) :
  proxied ep = true ->
  prepared ep w = Returned c ->
  backend w [] c = Returned r ->
  json r = Returned B ->
  is_document B = true ->
  calls (view_function ep) w = [c] /\
  outcome (view_function ep) w = Returned (WithStatus (Value B) (status_code r)) /\
  reply_to (WithStatus (Value B) (status_code r))
  = {| status := status_code r; mimetype := "application/json"; data := JsonBody B |}.
Proof.
  intros Hp Hc Hb Hj Hdoc.
  rewrite (proxy_calls ep w Hp), (proxy_outcome ep w Hp), Hc.
  unfold relay. rewrite Hb, Hj.
  repeat split.
  destruct B; try discriminate Hdoc; reflexivity.
Qed.

Lemma document_body_is_relayed_witness :
  calls (view_function ApiRegister) (world json_request backend_failing)
  = [HttpPost "http://localhost:3007/register"
       (PyDict [("domain", PyStr "example.com"); ("ip", PyStr "8.8.8.8")])
       [("Content-Type", "application/json")]] /\
  outcome (view_function ApiRegister) (world json_request backend_failing)
  = Returned (WithStatus (Value (PyDict [("error", PyStr "Connection refused")])) 500) /\
  reply_to (WithStatus (Value (PyDict [("error", PyStr "Connection refused")])) 500)
  = {| status := 500; mimetype := "application/json";
       data := JsonBody (PyDict [("error", PyStr "Connection refused")]) |}.
Proof.
  apply (document_body_is_relayed ApiRegister (world json_request backend_failing)
           (HttpPost "http://localhost:3007/register"
              (PyDict [("domain", PyStr "example.com"); ("ip", PyStr "8.8.8.8")])
              [("Content-Type", "application/json")])
           {| status_code := 500;
              json := Returned (PyDict [("error", PyStr "Connection refused")]) |});
    reflexivity.
Defined.
